(** * skimage.data: the standard test images

    A shallow embedding of [skimage/data/__init__.py]: the generic loader
    [load], the fourteen plain accessors, [horse] and the withdrawn [lena].

    The module is glue around collaborators that live elsewhere in the
    package ([data_dir], [use_plugin], [imread], [img_as_bool], and the
    decorator [deprecated]) and around two pieces of the Python standard
    library ([os.path.join], [warnings]).  The standard library pieces are
    modelled here; the package collaborators are the fields of the class
    [Collaborators], so that every statement about the module holds for any
    implementation of them. *)

From Stdlib Require Import String Ascii List ZArith Bool Lia.
From Stdlib.Strings Require Import Byte.
Import ListNotations.
Local Open Scope string_scope.
Local Open Scope list_scope.

(** ** Python classes, exceptions and warnings *)

(** Exception classes form a tree below [BaseException]; a class is its name
    together with its base. *)
Inductive PyClass : Type :=
| BaseException
| Subclass (name : string) (base : PyClass).

Definition Exception : PyClass := Subclass "Exception" BaseException.
Definition RuntimeError : PyClass := Subclass "RuntimeError" Exception.
Definition Warning : PyClass := Subclass "Warning" Exception.
Definition UserWarning : PyClass := Subclass "UserWarning" Warning.

Fixpoint class_eqb (c d : PyClass) : bool :=
  match c, d with
  | BaseException, BaseException => true
  | Subclass n b, Subclass n' b' => String.eqb n n' && class_eqb b b'
  | _, _ => false
  end.

(** [issubclass c d]: [c] is [d] or one of the classes derived from it. *)
Fixpoint issubclass (c d : PyClass) : bool :=
  class_eqb c d ||
  match c with
  | BaseException => false
  | Subclass _ b => issubclass b d
  end.

(** The classes Python itself defines, as far as this module meets them. *)
Definition builtin_class (c : PyClass) : bool :=
  class_eqb c BaseException || class_eqb c Exception ||
  class_eqb c RuntimeError || class_eqb c Warning || class_eqb c UserWarning.

Record PyExc : Type := mkExc { exc_class : PyClass; exc_msg : string }.

(** [warnings.warn] refuses a category that is not derived from [Warning], so
    a warning carries the names on the path from its category up to [Warning],
    most derived first ([[]] for [Warning] itself). *)
Record PyWarning : Type := mkWarning { w_kind : list string; w_message : string }.

Fixpoint category_of (kind : list string) : PyClass :=
  match kind with
  | [] => Warning
  | name :: bases => Subclass name (category_of bases)
  end.

Definition w_category (pw : PyWarning) : PyClass := category_of (w_kind pw).

(** ** The [warnings] module *)

Inductive Action : Type :=
| ActError | ActIgnore | ActAlways | ActDefault | ActModule | ActOnce.

(** A filter is an action and the warnings it applies to.  [filterwarnings]
    selects them by message, category, module and line; the selection is kept
    as a predicate. *)
Record Filter : Type := mkFilter { f_action : Action; f_matches : PyWarning -> bool }.

(** The first filter that matches decides; without a match the action is the
    module's [defaultaction], "default". *)
Fixpoint action_for (fl : list Filter) (pw : PyWarning) : Action :=
  match fl with
  | [] => ActDefault
  | f :: rest => if f_matches f pw then f_action f else action_for rest pw
  end.

(** The exception the action "error" makes of the first warning it meets, and
    the warnings sent to the display before that. *)
Fixpoint escalated (fl : list Filter) (ws : list PyWarning) : option PyExc :=
  match ws with
  | [] => None
  | pw :: rest =>
      match action_for fl pw with
      | ActError => Some (mkExc (w_category pw) (w_message pw))
      | _ => escalated fl rest
      end
  end.

Fixpoint displayed (fl : list Filter) (ws : list PyWarning) : list PyWarning :=
  match ws with
  | [] => []
  | pw :: rest =>
      match action_for fl pw with
      | ActError => []
      | ActIgnore => displayed fl rest
      | _ => pw :: displayed fl rest
      end
  end.

(** ** Images *)

Inductive Dtype : Type :=
| DBool
| DUInt (bits : nat)
| DFloat (bits : nat).

(** A decoded raster: two-dimensional [[H, W]] when [channels] is [None],
    [[H, W, C]] when it is [Some C]; [samples] holds the sample codes in
    row-major order. *)
Record Image : Type := mkImage {
  height : nat;
  width : nat;
  channels : option nat;
  dtype : Dtype;
  samples : list Z
}.

(** ** The world a call runs in *)

Definition FileSystem : Type := string -> option (list byte).

(** [plugin_store] is the state of [skimage.io]'s plugin registry, [filters]
    is [warnings.filters], and [shown] lists the warnings that reached the
    display decision, oldest first.  The once-per-location registries behind
    the actions "default", "module" and "once" are not kept: [shown] is an
    upper bound of what is printed. *)
Record World (B : Type) : Type := mkWorld {
  fs : FileSystem;
  plugin_store : B;
  filters : list Filter;
  shown : list PyWarning
}.

Arguments mkWorld {B} _ _ _ _.
Arguments fs {B} _.
Arguments plugin_store {B} _.
Arguments filters {B} _.
Arguments shown {B} _.

Definition set_store {B} (b : B) (w : World B) : World B :=
  mkWorld (fs w) b (filters w) (shown w).

Definition set_filters {B} (fl : list Filter) (w : World B) : World B :=
  mkWorld (fs w) (plugin_store w) fl (shown w).

Definition show {B} (pw : PyWarning) (w : World B) : World B :=
  mkWorld (fs w) (plugin_store w) (filters w) (shown w ++ [pw]).

(** ** Calls: state passing with exceptions *)

Inductive Outcome (A : Type) : Type :=
| Returned (a : A)
| Raised (e : PyExc).

Arguments Returned {A} _.
Arguments Raised {A} _.

Definition M (B A : Type) : Type := World B -> World B * Outcome A.

Definition ret {B A} (a : A) : M B A := fun w => (w, Returned a).

Definition raise {B A} (e : PyExc) : M B A := fun w => (w, Raised e).

Definition bind {B A A'} (m : M B A) (k : A -> M B A') : M B A' :=
  fun w =>
    match m w with
    | (w1, Returned a) => k a w1
    | (w1, Raised e) => (w1, Raised e)
    end.

Declare Scope py_scope.
Delimit Scope py_scope with py.
Notation "x <- m ;; k" := (bind m (fun x => k))
  (at level 61, m at next level, right associativity) : py_scope.
Notation "m ;; k" := (bind m (fun _ => k))
  (at level 61, right associativity) : py_scope.
Local Open Scope py_scope.

(** The world a call leaves and what it hands back. *)
Definition world_after {B A} (r : World B * Outcome A) : World B := fst r.
Definition outcome {B A} (r : World B * Outcome A) : Outcome A := snd r.

(** [warnings.warn]: "error" turns the warning into an exception, "ignore"
    drops it, every other action sends it to the display. *)
Definition warn {B} (pw : PyWarning) : M B unit :=
  fun w =>
    match action_for (filters w) pw with
    | ActError => (w, Raised (mkExc (w_category pw) (w_message pw)))
    | ActIgnore => (w, Returned tt)
    | _ => (show pw w, Returned tt)
    end.

Fixpoint warn_all {B} (ws : list PyWarning) : M B unit :=
  match ws with
  | [] => ret tt
  | pw :: rest => warn pw ;; warn_all rest
  end.

(** [warnings.simplefilter(action, category)]: a filter for every warning of
    the category, of any message, module and line, put in front. *)
Definition simplefilter {B} (a : Action) (category : PyClass) : M B unit :=
  fun w =>
    (set_filters (mkFilter a (fun pw => issubclass (w_category pw) category) :: filters w) w,
     Returned tt).

(** [with warnings.catch_warnings(): body]: the filters found on entry are
    put back on exit, whether [body] returns or raises. *)
Definition catch_warnings {B A} (body : M B A) : M B A :=
  fun w =>
    let saved := filters w in
    let (w1, r) := body w in
    (set_filters saved w1, r).

(** ** [os.path.join] (posixpath) *)

Definition sep : ascii := "/"%char.

Definition startswith_sep (s : string) : bool :=
  match s with
  | String c _ => Ascii.eqb c sep
  | EmptyString => false
  end.

Fixpoint endswith_sep (s : string) : bool :=
  match s with
  | EmptyString => false
  | String c EmptyString => Ascii.eqb c sep
  | String _ rest => endswith_sep rest
  end.

Definition is_empty (s : string) : bool :=
  match s with
  | EmptyString => true
  | String _ _ => false
  end.

Definition os_path_join (a b : string) : string :=
  if startswith_sep b then b
  else if is_empty a || endswith_sep a then a ++ b
  else a ++ String sep b.

(** ** The collaborators *)

(** What a call into the package returns to this module: the warnings it
    issued through [warnings.warn], in order, and its result or exception. *)
Definition Emitted (A : Type) : Type := (list PyWarning * (PyExc + A))%type.

Class Collaborators : Type := {
  Backend : Type;
  (** [skimage.data_dir] *)
  data_dir : string;
  (** [skimage.io.use_plugin(name)]: the registry with [name] selected, or the
      exception of a backend that cannot be initialised. *)
  use_plugin : string -> Backend -> PyExc + Backend;
  (** [skimage.io.imread(path, as_grey=...)] under a registry, on a file
      system. *)
  imread : Backend -> FileSystem -> string -> bool -> Emitted Image;
  (** [skimage.img_as_bool(image)] *)
  img_as_bool : Image -> Emitted Image;
  (** [skimage._shared.utils.deprecated(alt_func)(func)]: the wrapped
      function. *)
  deprecated : string -> forall A : Type, M Backend A -> M Backend A
}.

(** The accessors of [__all__], and the calls of the public interface. *)
Inductive Name : Type :=
| Camera | Lena | Text | Checkerboard | Coins | Moon | Page | Horse | Clock
| Immunohistochemistry | Chelsea | Coffee | HubbleDeepField | Rocket | Astronaut.

Inductive Call : Type :=
| CallLoad (f : string) (as_grey : bool)
| CallAccessor (n : Name).

Section Data.
Context {C : Collaborators}.

Definition Py (A : Type) : Type := M Backend A.

(** A call into the package: its warnings go through [warn] one by one, the
    first one raised as an error ends the call. *)
Definition external {A} (e : Emitted A) : Py A :=
  warn_all (fst e) ;;
  match snd e with
  | inl x => raise x
  | inr a => ret a
  end.

Definition call_use_plugin (name : string) : Py unit :=
  fun w =>
    match use_plugin name (plugin_store w) with
    | inl e => (w, Raised e)
    | inr b => (set_store b w, Returned tt)
    end.

Definition call_imread (path : string) (as_grey : bool) : Py Image :=
  fun w => external (imread (plugin_store w) (fs w) path as_grey) w.

Definition call_img_as_bool (img : Image) : Py Image :=
  external (img_as_bool img).

(** ** The module *)

(** [def load(f, as_grey=False)] *)
Definition as_grey_default : bool := false.

Definition load (f : string) (as_grey : bool) : Py Image :=
  call_use_plugin "pil" ;;
  call_imread (os_path_join data_dir f) as_grey.

Definition camera : Py Image := load "camera.png" as_grey_default.

Definition removed_error : PyExc :=
  mkExc RuntimeError "This image has been removed due to copyright concerns.".

Definition lena : Py Image :=
  deprecated "skimage.data.astronaut" Image (raise removed_error).

Definition astronaut : Py Image := load "astronaut.png" as_grey_default.

Definition text : Py Image := load "text.png" as_grey_default.

Definition checkerboard : Py Image := load "chessboard_GRAY.png" as_grey_default.

Definition coins : Py Image := load "coins.png" as_grey_default.

Definition moon : Py Image := load "moon.png" as_grey_default.

Definition page : Py Image := load "page.png" as_grey_default.

Definition horse : Py Image :=
  catch_warnings
    (simplefilter ActIgnore Warning ;;
     img <- load "horse.png" true ;;
     call_img_as_bool img).

Definition clock : Py Image := load "clock_motion.png" as_grey_default.

Definition immunohistochemistry : Py Image := load "ihc.png" as_grey_default.

Definition chelsea : Py Image := load "chelsea.png" as_grey_default.

Definition coffee : Py Image := load "coffee.png" as_grey_default.

Definition hubble_deep_field : Py Image := load "hubble_deep_field.jpg" as_grey_default.

Definition rocket : Py Image := load "rocket.jpg" as_grey_default.

(** The accessors of [__all__], by name. *)
Definition accessor (n : Name) : Py Image :=
  match n with
  | Camera => camera
  | Lena => lena
  | Text => text
  | Checkerboard => checkerboard
  | Coins => coins
  | Moon => moon
  | Page => page
  | Horse => horse
  | Clock => clock
  | Immunohistochemistry => immunohistochemistry
  | Chelsea => chelsea
  | Coffee => coffee
  | HubbleDeepField => hubble_deep_field
  | Rocket => rocket
  | Astronaut => astronaut
  end.

(** A run of several calls in a row. *)
Definition run (c : Call) : Py Image :=
  match c with
  | CallLoad f g => load f g
  | CallAccessor n => accessor n
  end.

Fixpoint run_calls (cs : list Call) (w : World Backend) : World Backend :=
  match cs with
  | [] => w
  | c :: rest => run_calls rest (world_after (run c w))
  end.

(** ** What the statements below are phrased with *)

(** How a call into the package ends under the filters [fl]. *)
Definition settle {A} (fl : list Filter) (e : Emitted A) : Outcome A :=
  match escalated fl (fst e) with
  | Some x => Raised x
  | None =>
      match snd e with
      | inl x => Raised x
      | inr a => Returned a
      end
  end.

(** The specification's policy table: the file each accessor is bound to
    ([lena] has none), and whether it asks for grey levels. *)
Definition catalog (n : Name) : option string :=
  match n with
  | Camera => Some "camera.png"
  | Astronaut => Some "astronaut.png"
  | Text => Some "text.png"
  | Checkerboard => Some "chessboard_GRAY.png"
  | Coins => Some "coins.png"
  | Moon => Some "moon.png"
  | Page => Some "page.png"
  | Horse => Some "horse.png"
  | Clock => Some "clock_motion.png"
  | Immunohistochemistry => Some "ihc.png"
  | Chelsea => Some "chelsea.png"
  | Coffee => Some "coffee.png"
  | HubbleDeepField => Some "hubble_deep_field.jpg"
  | Rocket => Some "rocket.jpg"
  | Lena => None
  end.


(** The thirteen rows of the table with no special handling. *)
Definition plain_catalog : list (Name * string) :=
  [ (Camera, "camera.png"); (Astronaut, "astronaut.png"); (Text, "text.png");
    (Checkerboard, "chessboard_GRAY.png"); (Coins, "coins.png"); (Moon, "moon.png");
    (Page, "page.png"); (Clock, "clock_motion.png"); (Immunohistochemistry, "ihc.png");
    (Chelsea, "chelsea.png"); (Coffee, "coffee.png");
    (HubbleDeepField, "hubble_deep_field.jpg"); (Rocket, "rocket.jpg") ].

(** Backend initialisation is idempotent: selecting a backend in a registry
    where it is already selected changes nothing. *)
Definition use_plugin_idempotent : Prop :=
  forall name b b', use_plugin name b = inr b' -> use_plugin name b' = inr b'.

(** The decorator's wrapper calls the function it wraps, once, and hands its
    outcome on. *)
Definition decorator_calls_through : Prop :=
  forall alt_func A (func : Py A) w,
    exists w0, deprecated alt_func A func w = func w0.

(** Moreover, before the call it touches neither the files nor the plugin
    registry. *)
Definition decorator_keeps_installation : Prop :=
  forall alt_func A (func : Py A) w,
    exists w0, deprecated alt_func A func w = func w0 /\
               fs w0 = fs w /\ plugin_store w0 = plugin_store w.



(** A session none of whose filters turns a warning into an error. *)
Definition never_errors (fl : list Filter) : Prop :=
  forall pw, action_for fl pw <> ActError.

(** The registry already has "pil" selected: selecting it again gives the
    same registry. *)
Definition pil_selected (b : Backend) : Prop :=
  use_plugin "pil" b = inr b.

End Data.

(** ** The collaborators as the specification describes them *)

Section SpecModel.

(** What the specification leaves to the backend and to the packaging: the
    directory, which backends can be initialised, the decoder of file
    contents, the samples and sample type of a raster once its colour channels
    are collapsed, the midpoint of a sample type, and the warnings the boolean
    conversion issues. *)
Variable dir : string.
Variable available : string -> bool.
Variable decode : list byte -> option Image.
Variable grey_samples : Image -> list Z.
Variable grey_dtype : Image -> Dtype.
Variable midpoint : Dtype -> Z.
Variable conversion_warnings : Image -> list PyWarning.

Definition FileNotFound : PyClass := Subclass "FileNotFound" Exception.
Definition DecodeError : PyClass := Subclass "DecodeError" Exception.
Definition BackendUnavailable : PyClass := Subclass "BackendUnavailable" Exception.

(** Modelled from the spec: backend selection ([skimage.io.use_plugin], not
    part of this module) "fails with a BackendUnavailable-kind error if no
    decoding backend can be initialized"; the registry is the selected
    backend, if any. *)
Definition spec_use_plugin (name : string) (b : option string) : PyExc + option string :=
  if available name then inr (Some name)
  else inl (mkExc BackendUnavailable name).

(** Modelled from the spec: a raster with "a trailing channel axis for color"
    becomes "2D for single-channel/grayscale" when the flag asks the backend
    "to collapse color channels during decode"; a raster without channel axis
    has nothing to collapse. *)
Definition collapse_channels (img : Image) : Image :=
  match channels img with
  | None => img
  | Some _ => mkImage (height img) (width img) None (grey_dtype img) (grey_samples img)
  end.

(** Modelled from the spec: the decoder ([skimage.io.imread], not part of this
    module), "decode(path, as_grayscale) -> Image", which "fails with a
    FileNotFound-kind error if the resolved path does not exist" and "with a
    DecodeError-kind error if the backend cannot interpret the file
    contents". *)
Definition spec_imread (b : option string) (files : FileSystem) (path : string)
    (as_grey : bool) : Emitted Image :=
  match b with
  | None => ([], inl (mkExc BackendUnavailable "imread"))
  | Some _ =>
      match files path with
      | None => ([], inl (mkExc FileNotFound path))
      | Some bytes =>
          match decode bytes with
          | None => ([], inl (mkExc DecodeError path))
          | Some img => ([], inr (if as_grey then collapse_channels img else img))
          end
      end
  end.

(** Modelled from the spec: the boolean conversion ([skimage.img_as_bool], not
    part of this module), "toBoolean(Image) -> Image", which converts "to
    boolean pixel type (threshold at decode-dependent midpoint)" and may issue
    conversion warnings. *)
Definition spec_img_as_bool (img : Image) : Emitted Image :=
  (conversion_warnings img,
   inr (mkImage (height img) (width img) (channels img) DBool
          (map (fun v => if Z.ltb (midpoint (dtype img)) v then 1%Z else 0%Z) (samples img)))).

(** Modelled from the spec: the decorator on [lena]
    ([skimage._shared.utils.deprecated], not part of this module); the
    specification knows [lena] only as "a stub that always fails", so the
    wrapper adds nothing to the function it wraps. *)
Definition spec_deprecated (alt_func : string) (A : Type) (func : M (option string) A) :
    M (option string) A :=
  func.

Definition spec_collaborators : Collaborators :=
  {| Backend := option string;
     data_dir := dir;
     use_plugin := spec_use_plugin;
     imread := spec_imread;
     img_as_bool := spec_img_as_bool;
     deprecated := spec_deprecated |}.

End SpecModel.

(** The number of distinct sample values of an image. *)
Definition distinct_values (img : Image) : nat :=
  length (nodup Z.eq_dec (samples img)).

(** ** A small installation to run the module on *)

Module Sample.

(** A toy raster format: height, width, channel count (zero for a raster
    without channel axis), then one byte per sample. *)
Definition raw_decode (bytes : list byte) : option Image :=
  match bytes with
  | h :: w :: c :: data =>
      Some (mkImage (N.to_nat (Byte.to_N h)) (N.to_nat (Byte.to_N w))
              (match N.to_nat (Byte.to_N c) with O => None | S k => Some (S k) end)
              (DUInt 8)
              (map (fun b => Z.of_N (Byte.to_N b)) data))
  | _ => None
  end.

Definition pkg_data : string := "/pkg/skimage/data".

Definition only_pil (name : string) : bool := String.eqb name "pil".

(** Grey levels by keeping a pixel's first channel. *)
Definition first_channel (img : Image) : list Z :=
  match channels img with
  | Some c => map (fun k => nth (k * c) (samples img) 0%Z) (seq 0 (height img * width img))
  | None => samples img
  end.

Definition uint_midpoint (d : Dtype) : Z :=
  match d with
  | DUInt bits => (2 ^ Z.of_nat bits - 1) / 2
  | _ => 0
  end.

Definition precision_loss (img : Image) : list PyWarning :=
  match dtype img with
  | DBool => []
  | _ => [mkWarning ["UserWarning"] "Possible precision loss when converting to bool"]
  end.

Definition collaborators : Collaborators :=
  spec_collaborators pkg_data only_pil raw_decode first_channel dtype uint_midpoint
    precision_loss.

(** The same installation with a decorator that announces the replacement
    before it calls the function. *)
Definition announcing (alt_func : string) (A : Type) (func : M (option string) A) :
    M (option string) A :=
  fun w =>
    func (show (mkWarning ["skimage_deprecation"]
                  ("Call to deprecated function. Use " ++ alt_func ++ " instead."))
            (set_filters
               (mkFilter ActAlways
                  (fun pw => issubclass (w_category pw) (category_of ["skimage_deprecation"]))
                :: filters w) w)).

Definition announcing_collaborators : Collaborators :=
  {| Backend := option string;
     data_dir := pkg_data;
     use_plugin := spec_use_plugin only_pil;
     imread := spec_imread raw_decode first_channel dtype;
     img_as_bool := spec_img_as_bool uint_midpoint precision_loss;
     deprecated := announcing |}.

(** Files: a 1x2 grey horse with a black and a white pixel, a 2x2 grey camera
    image, a 1x1 colour coffee image, a file under the withdrawn asset's name,
    an image outside the data directory, and a file that is not an image. *)
Definition files : FileSystem :=
  fun path =>
    if String.eqb path "/pkg/skimage/data/horse.png" then Some [x01; x02; x00; x00; xff]
    else if String.eqb path "/pkg/skimage/data/camera.png"
         then Some [x02; x02; x00; x0a; x14; x1e; x28]
    else if String.eqb path "/pkg/skimage/data/coffee.png"
         then Some [x01; x01; x03; x15; x0d; x32]
    else if String.eqb path "/pkg/skimage/data/lena.png"
         then Some [x01; x01; x00; x80]
    else if String.eqb path "/srv/upload/scan.png" then Some [x01; x01; x00; x07]
    else if String.eqb path "/pkg/skimage/data/README.txt" then Some [x72; x6f]
    else None.

(** The same directory with a horse of a single grey level. *)
Definition flat_files : FileSystem :=
  fun path =>
    if String.eqb path "/pkg/skimage/data/horse.png" then Some [x01; x02; x00; xc8; xc8]
    else files path.

Definition fresh : World (option string) := mkWorld files None [] [].

Definition flat : World (option string) := mkWorld flat_files None [] [].

(** A session in which every warning is an error. *)
Definition strict : World (option string) :=
  mkWorld files None [mkFilter ActError (fun _ => true)] [].

(** The same installation with a decoder that warns on every call. *)
Definition chatty_imread (b : option string) (fsys : FileSystem) (path : string)
    (as_grey : bool) : Emitted Image :=
  (mkWarning ["RuntimeWarning"] "slow decoder"
     :: fst (spec_imread raw_decode first_channel dtype b fsys path as_grey),
   snd (spec_imread raw_decode first_channel dtype b fsys path as_grey)).

Definition chatty_collaborators : Collaborators :=
  {| Backend := option string;
     data_dir := pkg_data;
     use_plugin := spec_use_plugin only_pil;
     imread := chatty_imread;
     img_as_bool := spec_img_as_bool uint_midpoint precision_loss;
     deprecated := spec_deprecated |}.



(** An installation without the "pil" backend. *)
Definition no_backend (name : string) : bool := false.

Definition bare_collaborators : Collaborators :=
  spec_collaborators pkg_data no_backend raw_decode first_channel dtype uint_midpoint
    precision_loss.

End Sample.

(** ** A decoder that reports what it is asked for *)

Module Probe.

Definition Requested : PyClass := Subclass "Requested" Exception.

(** Backend selection always succeeds, the decoder raises an exception that
    carries the path it was given, the conversion and the decorator do
    nothing. *)
Definition collaborators (dir : string) : Collaborators :=
  {| Backend := unit;
     data_dir := dir;
     use_plugin := fun _ b => inr b;
     imread := fun _ _ path _ => ([], inl (mkExc Requested path));
     img_as_bool := fun img => ([], inr img);
     deprecated := fun _ A func => func |}.

Definition blank : World unit := mkWorld (fun _ => None) tt [] [].

(** The path an accessor hands to the decoder, read off a run of the accessor
    itself. *)
Definition requested_path (dir : string) (n : Name) : option string :=
  match outcome (@accessor (collaborators dir) n blank) with
  | Raised e => if class_eqb (exc_class e) Requested then Some (exc_msg e) else None
  | Returned _ => None
  end.

End Probe.

(** * Properties *)

(** ** Classes and warnings *)

Lemma class_eqb_refl (c : PyClass) : class_eqb c c = true.
Proof.
  induction c as [|n b IH]; simpl; [reflexivity|].
  now rewrite String.eqb_refl, IH.
Qed.

Lemma issubclass_refl (c : PyClass) : issubclass c c = true.
Proof.
  destruct c; simpl; [reflexivity|].
  now rewrite String.eqb_refl, class_eqb_refl.
Qed.

(** Every warning's category is derived from [Warning]. *)
Lemma category_is_warning (pw : PyWarning) : issubclass (w_category pw) Warning = true.
Proof.
  unfold w_category.
  induction (w_kind pw) as [|n bases IH].
  - apply issubclass_refl.
  - cbn [category_of issubclass]. rewrite IH. apply orb_true_r.
Qed.

(** Filters that start with an "ignore" filter for [Warning] let nothing
    through and raise nothing. *)
Lemma ignore_all_action (fl : list Filter) (pw : PyWarning) :
  action_for (mkFilter ActIgnore (fun x => issubclass (w_category x) Warning) :: fl) pw
  = ActIgnore.
Proof.
  cbn [action_for f_matches f_action]. now rewrite category_is_warning.
Qed.

Lemma ignore_all_escalated (fl : list Filter) (ws : list PyWarning) :
  escalated (mkFilter ActIgnore (fun x => issubclass (w_category x) Warning) :: fl) ws = None.
Proof.
  induction ws as [|pw rest IH]; [reflexivity|].
  cbn [escalated]. now rewrite ignore_all_action.
Qed.

Lemma ignore_all_displayed (fl : list Filter) (ws : list PyWarning) :
  displayed (mkFilter ActIgnore (fun x => issubclass (w_category x) Warning) :: fl) ws = [].
Proof.
  induction ws as [|pw rest IH]; [reflexivity|].
  cbn [displayed]. now rewrite ignore_all_action.
Qed.

Lemma warn_all_eq {B} (ws : list PyWarning) (w : World B) :
  warn_all ws w =
  (mkWorld (fs w) (plugin_store w) (filters w) (shown w ++ displayed (filters w) ws),
   match escalated (filters w) ws with
   | Some e => Raised e
   | None => Returned tt
   end).
Proof.
  revert w. induction ws as [|pw rest IH]; intros [files store fl log].
  - cbn. now rewrite app_nil_r.
  - cbn [warn_all escalated displayed]. unfold bind, warn. cbn [filters].
    destruct (action_for fl pw); rewrite ?IH; unfold show;
      cbn [fs plugin_store filters shown];
      rewrite ?app_nil_r, <- ?app_assoc; reflexivity.
Qed.

(** ** Path resolution *)

Lemma append_empty_r (s : string) : (s ++ "")%string = s.
Proof.
  induction s as [|c s IH]; simpl; [reflexivity|now rewrite IH].
Qed.

Example os_path_join_relative : os_path_join "/pkg/data" "moon.png" = "/pkg/data/moon.png".
Proof. reflexivity. Qed.

Example os_path_join_after_sep : os_path_join "/pkg/data/" "moon.png" = "/pkg/data/moon.png".
Proof. reflexivity. Qed.

Example os_path_join_from_nothing : os_path_join "" "moon.png" = "moon.png".
Proof. reflexivity. Qed.

Example os_path_join_rooted : os_path_join "/pkg/data" "/tmp/moon.png" = "/tmp/moon.png".
Proof. reflexivity. Qed.

Lemma os_path_join_absolute (a b : string) :
  startswith_sep b = true -> os_path_join a b = b.
Proof.
  intros H. unfold os_path_join. now rewrite H.
Qed.

Lemma os_path_join_empty (a : string) :
  os_path_join a "" = if is_empty a || endswith_sep a then a else (a ++ "/")%string.
Proof.
  unfold os_path_join. cbn [startswith_sep].
  destruct (is_empty a || endswith_sep a); [apply append_empty_r|reflexivity].
Qed.

Section Facts.
Context {C : Collaborators}.

(** ** Calls into the package *)

Lemma external_eq {A} (e : Emitted A) (w : World Backend) :
  external e w =
  (mkWorld (fs w) (plugin_store w) (filters w) (shown w ++ displayed (filters w) (fst e)),
   settle (filters w) e).
Proof.
  unfold external, bind, settle. rewrite warn_all_eq.
  destruct (escalated (filters w) (fst e)); [reflexivity|].
  destruct (snd e); reflexivity.
Qed.

(** [load] written out: the backend is selected, then the decoder is called on
    the joined path with the flag as given. *)
Lemma load_eq (f : string) (g : bool) (w : World Backend) :
  load f g w =
  match use_plugin "pil" (plugin_store w) with
  | inl e => (w, Raised e)
  | inr b =>
      let e := imread b (fs w) (os_path_join data_dir f) g in
      (mkWorld (fs w) b (filters w) (shown w ++ displayed (filters w) (fst e)),
       settle (filters w) e)
  end.
Proof.
  unfold load, bind, call_use_plugin, call_imread.
  destruct (use_plugin "pil" (plugin_store w)) as [e|b]; [reflexivity|].
  now rewrite external_eq.
Qed.

(** [horse] written out: the pipeline runs with every warning ignored, and the
    filters are put back. *)
Lemma horse_eq (w : World Backend) :
  horse w =
  match use_plugin "pil" (plugin_store w) with
  | inl e => (w, Raised e)
  | inr b =>
      (mkWorld (fs w) b (filters w) (shown w),
       match snd (imread b (fs w) (os_path_join data_dir "horse.png") true) with
       | inl e => Raised e
       | inr img =>
           match snd (img_as_bool img) with
           | inl e => Raised e
           | inr bw => Returned bw
           end
       end)
  end.
Proof.
  destruct w as [files store fl log].
  unfold horse, catch_warnings, simplefilter, call_img_as_bool.
  unfold bind at 1. unfold bind at 1. rewrite load_eq.
  cbn [set_filters fs plugin_store filters shown].
  destruct (use_plugin "pil" store) as [e|b]; [reflexivity|].
  cbn zeta. unfold settle.
  rewrite ignore_all_escalated, ignore_all_displayed, app_nil_r.
  destruct (snd (imread b files (os_path_join data_dir "horse.png") true)) as [e|img];
    [reflexivity|].
  rewrite external_eq. unfold settle.
  cbn [set_filters fs plugin_store filters shown].
  rewrite ignore_all_escalated, ignore_all_displayed, app_nil_r.
  reflexivity.
Qed.

(** ** The loader *)

(** C5: for every filename [f] and flag [g], [load f g] joins the data
    directory with [f], selects the "pil" backend, and hands back what the
    decoder makes of that path with that flag; an image it returns is the
    decoder's image, untouched. *)
Theorem load_resolves_selects_decodes (f : string) (g : bool) (w : World Backend) :
  load f g w =
    match use_plugin "pil" (plugin_store w) with
    | inl e => (w, Raised e)
    | inr b => external (imread b (fs w) (os_path_join data_dir f) g) (set_store b w)
    end
  /\ (forall img, outcome (load f g w) = Returned img ->
        exists b ws,
          use_plugin "pil" (plugin_store w) = inr b /\
          imread b (fs w) (os_path_join data_dir f) g = (ws, inr img)).
Proof.
  split.
  - unfold load, bind, call_use_plugin, call_imread.
    destruct (use_plugin "pil" (plugin_store w)); reflexivity.
  - intros img. rewrite load_eq.
    destruct (use_plugin "pil" (plugin_store w)) as [e|b]; [discriminate|].
    cbn zeta. unfold outcome, settle. cbn [snd].
    destruct (imread b (fs w) (os_path_join data_dir f) g) as [ws [e|img']] eqn:E;
      cbn [fst snd]; destruct (escalated (filters w) ws); try discriminate.
    intros [= ->]. now exists b, ws.
Qed.

(** C10: [load] does not validate its filename.  A filename that starts with
    the separator is its own resolved path, whatever the data directory, and
    is handed to the decoder as it is; for the empty filename the resolved
    path is the data directory, closed by a separator when it is not empty and
    does not end in one already. *)
Theorem load_does_not_validate_filename (g : bool) :
  (forall f, startswith_sep f = true ->
     os_path_join data_dir f = f /\
     load f g = (call_use_plugin "pil" ;; call_imread f g))
  /\ os_path_join data_dir "" =
       (if is_empty data_dir || endswith_sep data_dir then data_dir
        else (data_dir ++ "/")%string)
  /\ load "" g = (call_use_plugin "pil" ;; call_imread (os_path_join data_dir "") g).
Proof.
  split; [|split].
  - intros f Hf. split; [now apply os_path_join_absolute|].
    unfold load. now rewrite os_path_join_absolute.
  - apply os_path_join_empty.
  - reflexivity.
Qed.

(** ** The accessors *)

(** C2: each of the thirteen accessors without special handling is [load] at
    the file the catalog gives it, the grey flag left at its default [false];
    the thirteen are all the accessors but [horse] and [lena]. *)
Theorem plain_accessors_load_their_file :
  Forall (fun row => accessor (fst row) = load (snd row) false) plain_catalog
  /\ as_grey_default = false
  /\ (forall n, In n (map fst plain_catalog) \/ n = Horse \/ n = Lena)
  /\ Forall (fun row => catalog (fst row) = Some (snd row)) plain_catalog.
Proof.
  split; [|split; [|split]].
  - repeat constructor.
  - reflexivity.
  - intros []; cbn; tauto.
  - repeat constructor.
Qed.

(** C3: [horse] is [load "horse.png"] with the grey flag set, followed by the
    boolean conversion of the loaded image, run with every warning ignored:
    the outcome is the one the backend, the decoder and the conversion
    produce, no warning is shown or raised as an error, and the filters are
    back in place afterwards.  Every other accessor is [lena] or a plain
    [load] at the default flag, with no conversion after it. *)
Theorem horse_is_silenced_boolean_load (w : World Backend) :
  outcome (horse w) =
    match use_plugin "pil" (plugin_store w) with
    | inl e => Raised e
    | inr b =>
        match snd (imread b (fs w) (os_path_join data_dir "horse.png") true) with
        | inl e => Raised e
        | inr img =>
            match snd (img_as_bool img) with
            | inl e => Raised e
            | inr bw => Returned bw
            end
        end
    end
  /\ shown (world_after (horse w)) = shown w
  /\ filters (world_after (horse w)) = filters w
  /\ (forall n, n = Horse \/ n = Lena \/
                exists file, accessor n = load file as_grey_default).
Proof.
  rewrite horse_eq.
  repeat split.
  - destruct (use_plugin "pil" (plugin_store w)); reflexivity.
  - destruct (use_plugin "pil" (plugin_store w)); reflexivity.
  - destruct (use_plugin "pil" (plugin_store w)); reflexivity.
  - intros []; auto; right; right; eexists; reflexivity.
Qed.

(** ** The withdrawn image *)

Lemma lena_raises (Hdec : decorator_calls_through) (w : World Backend) :
  exists w0, lena w = (w0, Raised removed_error).
Proof.
  destruct (Hdec "skimage.data.astronaut" Image (raise removed_error) w) as (w0 & Heq).
  exists w0. unfold lena. now rewrite Heq.
Qed.


Lemma lena_eq (Hdec : decorator_keeps_installation) (w : World Backend) :
  exists w0, lena w = (w0, Raised removed_error) /\
             fs w0 = fs w /\ plugin_store w0 = plugin_store w.
Proof.
  destruct (Hdec "skimage.data.astronaut" Image (raise removed_error) w)
    as (w0 & Heq & Hfs & Hst).
  exists w0. unfold lena. now rewrite Heq.
Qed.

(** The error is an instance of Python's own [RuntimeError]; the module
    defines no exception class. *)
Lemma removed_error_is_builtin :
  exc_class removed_error = RuntimeError
  /\ builtin_class (exc_class removed_error) = true.
Proof. split; reflexivity. Qed.

(** C1: whatever calls came before and whatever the files are, a call of
    [lena] fails with the error that says the image was removed, and returns
    no image. *)
Theorem lena_always_fails (Hdec : decorator_calls_through)
    (prior : list Call) (w : World Backend) :
  outcome (lena (run_calls prior w)) = Raised removed_error
  /\ (forall img, outcome (lena (run_calls prior w)) <> Returned img).
Proof.
  destruct (lena_raises Hdec (run_calls prior w)) as (w0 & Heq).
  rewrite Heq. split; [reflexivity|discriminate].
Qed.

(** ** Calls do not disturb one another *)

Lemma load_frame (f : string) (g : bool) (w : World Backend) :
  fs (world_after (load f g w)) = fs w
  /\ filters (world_after (load f g w)) = filters w
  /\ (plugin_store (world_after (load f g w)) = plugin_store w \/
      use_plugin "pil" (plugin_store w) = inr (plugin_store (world_after (load f g w))))
  /\ exists l, shown (world_after (load f g w)) = shown w ++ l.
Proof.
  rewrite load_eq.
  destruct (use_plugin "pil" (plugin_store w)) as [e|b]; cbn.
  - repeat split; auto. exists []. now rewrite app_nil_r.
  - repeat split; auto. eexists; reflexivity.
Qed.

Lemma horse_frame (w : World Backend) :
  fs (world_after (horse w)) = fs w
  /\ filters (world_after (horse w)) = filters w
  /\ (plugin_store (world_after (horse w)) = plugin_store w \/
      use_plugin "pil" (plugin_store w) = inr (plugin_store (world_after (horse w))))
  /\ exists l, shown (world_after (horse w)) = shown w ++ l.
Proof.
  rewrite horse_eq.
  destruct (use_plugin "pil" (plugin_store w)) as [e|b]; cbn;
    repeat split; auto; exists []; now rewrite app_nil_r.
Qed.

Lemma run_frame (Hdec : decorator_keeps_installation) (c : Call) (w : World Backend) :
  fs (world_after (run c w)) = fs w
  /\ (plugin_store (world_after (run c w)) = plugin_store w \/
      use_plugin "pil" (plugin_store w) = inr (plugin_store (world_after (run c w))))
  /\ (c <> CallAccessor Lena ->
      filters (world_after (run c w)) = filters w /\
      exists l, shown (world_after (run c w)) = shown w ++ l).
Proof.
  assert (Hload : forall f g,
             fs (world_after (load f g w)) = fs w
             /\ (plugin_store (world_after (load f g w)) = plugin_store w \/
                 use_plugin "pil" (plugin_store w)
                 = inr (plugin_store (world_after (load f g w))))
             /\ (c <> CallAccessor Lena ->
                 filters (world_after (load f g w)) = filters w /\
                 exists l, shown (world_after (load f g w)) = shown w ++ l)).
  { intros f g. destruct (load_frame f g w) as (H1 & H2 & H3 & H4). auto. }
  destruct c as [f g|n]; [apply Hload|].
  destruct n; try apply Hload.
  - destruct (lena_eq Hdec w) as (w0 & Heq & Hfs & Hst).
    cbn [run accessor]. rewrite Heq. cbn.
    split; [exact Hfs|]. split; [now left|]. intros Hc. now contradiction Hc.
  - destruct (horse_frame w) as (H1 & H2 & H3 & H4). cbn [run accessor]. auto.
Qed.














End Facts.

(** ** The collaborators of the specification *)

Lemma nodup_two_valued (l : list Z) :
  Forall (fun v => v = 0 \/ v = 1)%Z l ->
  length (nodup Z.eq_dec l) <= 2
  /\ (length (nodup Z.eq_dec l) = 2 <-> In 0%Z l /\ In 1%Z l).
Proof.
  intros Hl.
  assert (Hincl : incl (nodup Z.eq_dec l) [0; 1]%Z).
  { intros v Hv. apply nodup_In in Hv. rewrite Forall_forall in Hl.
    destruct (Hl v Hv) as [-> | ->]; cbn; auto. }
  assert (Hle : length (nodup Z.eq_dec l) <= 2).
  { apply (NoDup_incl_length (NoDup_nodup Z.eq_dec l) Hincl). }
  split; [exact Hle|]. split.
  - intros Hlen.
    assert (Hback : incl [0; 1]%Z (nodup Z.eq_dec l)).
    { apply NoDup_length_incl; [apply NoDup_nodup|rewrite Hlen; cbn; lia|exact Hincl]. }
    split; apply (nodup_In Z.eq_dec); apply Hback; cbn; auto.
  - intros [H0 H1].
    assert (Hback : incl [0; 1]%Z (nodup Z.eq_dec l)).
    { intros v [<- | [<- | []]]; now apply nodup_In. }
    assert (Hnd : NoDup [0; 1]%Z).
    { repeat constructor; cbn; intuition discriminate. }
    pose proof (NoDup_incl_length Hnd Hback) as Hge. cbn in Hge. lia.
Qed.

Lemma threshold_two_valued (m : Z) (l : list Z) :
  Forall (fun v => v = 0 \/ v = 1)%Z
    (map (fun v => if Z.ltb m v then 1%Z else 0%Z) l).
Proof.
  apply Forall_forall. intros v Hv. apply in_map_iff in Hv.
  destruct Hv as (x & <- & _). destruct (Z.ltb m x); auto.
Qed.

Lemma threshold_has_one (m : Z) (l : list Z) :
  In 1%Z (map (fun v => if Z.ltb m v then 1%Z else 0%Z) l)
  <-> exists v, In v l /\ (m < v)%Z.
Proof.
  rewrite in_map_iff. split.
  - intros (x & Hx & Hin). exists x. split; [exact Hin|].
    destruct (Z.ltb_spec m x); [assumption|discriminate].
  - intros (x & Hin & Hlt). exists x. split; [|exact Hin].
    destruct (Z.ltb_spec m x); [reflexivity|lia].
Qed.

Lemma threshold_has_zero (m : Z) (l : list Z) :
  In 0%Z (map (fun v => if Z.ltb m v then 1%Z else 0%Z) l)
  <-> exists v, In v l /\ (v <= m)%Z.
Proof.
  rewrite in_map_iff. split.
  - intros (x & Hx & Hin). exists x. split; [exact Hin|].
    destruct (Z.ltb_spec m x); [discriminate|assumption].
  - intros (x & Hin & Hle). exists x. split; [|exact Hin].
    destruct (Z.ltb_spec m x); [lia|reflexivity].
Qed.

Section SpecFacts.

Variable dir : string.
Variable available : string -> bool.
Variable decode : list byte -> option Image.
Variable grey_samples : Image -> list Z.
Variable grey_dtype : Image -> Dtype.
Variable midpoint : Dtype -> Z.
Variable conversion_warnings : Image -> list PyWarning.

Local Notation "'SPEC'" :=
  (spec_collaborators dir available decode grey_samples grey_dtype midpoint
     conversion_warnings).




(** What a successful [horse] has read, and how its image comes from it. *)
Lemma spec_horse_returned (w : World (option string)) (img : Image) :
  outcome (@horse SPEC w) = Returned img ->
  exists bytes raw,
    fs w (os_path_join dir "horse.png") = Some bytes
    /\ decode bytes = Some raw
    /\ dtype img = DBool
    /\ samples img =
         map (fun v => if Z.ltb (midpoint (dtype (collapse_channels grey_samples grey_dtype raw))) v
                       then 1%Z else 0%Z)
           (samples (collapse_channels grey_samples grey_dtype raw)).
Proof.
  rewrite horse_eq.
  cbn [use_plugin imread img_as_bool data_dir Backend spec_collaborators].
  unfold spec_use_plugin, spec_imread, outcome.
  destruct (available "pil"); [|discriminate]. cbn [snd].
  destruct (fs w (os_path_join dir "horse.png")) as [bytes|]; [|discriminate].
  destruct (decode bytes) as [raw|] eqn:Hraw; [|discriminate].
  cbn [snd spec_img_as_bool]. intros [= <-].
  exists bytes, raw. repeat split; auto.
Qed.

(** C8, as the code has it: a successful [horse] returns an image of boolean
    sample type, every sample being one of the two boolean values, so it
    takes at most two distinct values; it takes exactly two when, and only
    when, the grey source has a sample above the midpoint and one that is
    not. *)
Theorem horse_samples_are_boolean (w : World (option string)) (img : Image) :
  outcome (@horse SPEC w) = Returned img ->
  dtype img = DBool
  /\ Forall (fun v => v = 0 \/ v = 1)%Z (samples img)
  /\ distinct_values img <= 2
  /\ exists bytes raw,
       fs w (os_path_join dir "horse.png") = Some bytes
       /\ decode bytes = Some raw
       /\ (distinct_values img = 2 <->
           (exists v, In v (samples (collapse_channels grey_samples grey_dtype raw))
                      /\ (midpoint (dtype (collapse_channels grey_samples grey_dtype raw)) < v)%Z)
           /\ (exists v, In v (samples (collapse_channels grey_samples grey_dtype raw))
                         /\ (v <= midpoint (dtype (collapse_channels grey_samples grey_dtype raw)))%Z)).
Proof.
  intros Hout.
  destruct (spec_horse_returned w img Hout) as (bytes & raw & Hfile & Hraw & Hdt & Hs).
  pose proof (threshold_two_valued
                (midpoint (dtype (collapse_channels grey_samples grey_dtype raw)))
                (samples (collapse_channels grey_samples grey_dtype raw))) as Htwo.
  rewrite <- Hs in Htwo.
  destruct (nodup_two_valued (samples img) Htwo) as (Hle & Hiff).
  split; [exact Hdt|]. split; [exact Htwo|]. split; [exact Hle|].
  exists bytes, raw. split; [exact Hfile|]. split; [exact Hraw|].
  unfold distinct_values. rewrite Hiff, Hs, threshold_has_one, threshold_has_zero.
  tauto.
Qed.

End SpecFacts.

(** ** The example installation *)

Lemma only_pil_idempotent : @use_plugin_idempotent Sample.collaborators.
Proof.
  intros name b b'. cbn [use_plugin Sample.collaborators spec_collaborators].
  unfold spec_use_plugin. destruct (Sample.only_pil name); congruence.
Qed.

Lemma plain_wrapper_keeps_installation :
  @decorator_keeps_installation Sample.collaborators.
Proof.
  intros alt_func A func w. exists w. repeat split.
Qed.

(** A filename that starts with the separator reaches a file outside the data
    directory. *)
Example load_reads_outside_the_data_directory :
  outcome (@load Sample.collaborators "/srv/upload/scan.png" false Sample.fresh)
  = Returned (mkImage 1 1 None (DUInt 8) [7%Z]).
Proof. reflexivity. Qed.

(** In a session that makes every warning an error the boolean conversion on
    its own raises, and [horse] still returns. *)
Example horse_survives_a_strict_session :
  outcome (@call_img_as_bool Sample.collaborators (mkImage 1 2 None (DUInt 8) [0; 255]%Z)
             Sample.strict)
  = Raised (mkExc UserWarning "Possible precision loss when converting to bool")
  /\ outcome (@horse Sample.collaborators Sample.strict)
     = Returned (mkImage 1 2 None DBool [0; 1]%Z).
Proof. split; reflexivity. Qed.

(** A decorator that announces the replacement through [warnings] puts a
    filter of its own in front and shows its warning; the call still fails
    with the same error. *)
Example announced_lena :
  outcome (@lena Sample.announcing_collaborators Sample.strict) = Raised removed_error
  /\ length (filters (world_after (@lena Sample.announcing_collaborators Sample.strict)))
     = 2
  /\ shown (world_after (@lena Sample.announcing_collaborators Sample.strict))
     = [mkWarning ["skimage_deprecation"]
          "Call to deprecated function. Use skimage.data.astronaut instead."].
Proof. repeat split. Qed.

(** [lena] after three other calls, one of them [lena] itself, in a directory
    that holds a file under the withdrawn asset's name. *)
Lemma lena_always_fails_witness :
  Sample.files "/pkg/skimage/data/lena.png" = Some [x01; x01; x00; x80]
  /\ outcome (@lena Sample.announcing_collaborators
                (@run_calls Sample.announcing_collaborators
                   [CallAccessor Camera; CallAccessor Lena; CallLoad "lena.png" false]
                   Sample.fresh))
     = Raised removed_error
  /\ (forall img,
        outcome (@lena Sample.announcing_collaborators
                   (@run_calls Sample.announcing_collaborators
                      [CallAccessor Camera; CallAccessor Lena; CallLoad "lena.png" false]
                      Sample.fresh))
        <> Returned img).
Proof.
  split; [reflexivity|].
  apply (@lena_always_fails Sample.announcing_collaborators).
  intros alt_func A func w. eexists. reflexivity.
Defined.









(** The horse of the example: a black and a white pixel. *)
Lemma horse_samples_are_boolean_witness :
  outcome (@horse Sample.collaborators Sample.fresh)
  = Returned (mkImage 1 2 None DBool [0; 1]%Z)
  /\ dtype (mkImage 1 2 None DBool [0; 1]%Z) = DBool
  /\ distinct_values (mkImage 1 2 None DBool [0; 1]%Z) <= 2.
Proof.
  split; [reflexivity|].
  destruct (horse_samples_are_boolean
              Sample.pkg_data Sample.only_pil Sample.raw_decode Sample.first_channel
              dtype Sample.uint_midpoint Sample.precision_loss
              Sample.fresh (mkImage 1 2 None DBool [0; 1]%Z) eq_refl)
    as (Hd & _ & Hle & _).
  split; assumption.
Defined.

(** A horse of a single grey level: [horse] succeeds and its image takes one
    value, not two. *)
Lemma horse_flat_counterexample :
  outcome (@horse Sample.collaborators Sample.flat)
  = Returned (mkImage 1 2 None DBool [1; 1]%Z)
  /\ distinct_values (mkImage 1 2 None DBool [1; 1]%Z) = 1
  /\ distinct_values (mkImage 1 2 None DBool [1; 1]%Z) <> 2.
Proof.
  split; [reflexivity|]. split; [reflexivity|]. vm_compute. discriminate.
Qed.

(** With the data directory of the example, the path resolved for the empty
    filename is not the directory's own path: it ends in a separator. *)
Lemma empty_filename_counterexample :
  os_path_join (@data_dir Sample.collaborators) "" = "/pkg/skimage/data/"
  /\ os_path_join (@data_dir Sample.collaborators) "" <> @data_dir Sample.collaborators.
Proof.
  split; [reflexivity|]. vm_compute. discriminate.
Qed.

(** * Further properties of the module *)

Lemma append_cancel_l (a x y : string) : (a ++ x)%string = (a ++ y)%string -> x = y.
Proof.
  induction a as [|c a IH]; cbn; [auto|]. intros [= H]. auto.
Qed.

Lemma os_path_join_injective (a f1 f2 : string) :
  startswith_sep f1 = false ->
  startswith_sep f2 = false ->
  os_path_join a f1 = os_path_join a f2 ->
  f1 = f2.
Proof.
  unfold os_path_join. intros -> ->.
  destruct (is_empty a || endswith_sep a); intros H.
  - now apply append_cancel_l in H.
  - apply append_cancel_l in H. now injection H.
Qed.


Lemma never_errors_escalated (fl : list Filter) (ws : list PyWarning) :
  (forall pw, action_for fl pw <> ActError) -> escalated fl ws = None.
Proof.
  intros Hfl. induction ws as [|pw rest IH]; cbn [escalated]; [reflexivity|].
  specialize (Hfl pw). destruct (action_for fl pw); auto. congruence.
Qed.

Section Coverage.
Context {C : Collaborators}.

(** ** Warnings and the session's filters *)

(** [horse] ends the same way under any warning filters and any display: only
    the files and the plugin registry decide its outcome. *)
Theorem horse_outcome_ignores_the_session (w : World Backend)
    (fl : list Filter) (log : list PyWarning) :
  outcome (horse (mkWorld (fs w) (plugin_store w) fl log)) = outcome (horse w).
Proof.
  rewrite !horse_eq. cbn [fs plugin_store].
  destruct (use_plugin "pil" (plugin_store w)); reflexivity.
Qed.


(** In a session that turns no warning into an error, [horse] is [load] of
    "horse.png" with the grey flag followed by the conversion: it fails as
    [load] fails, and otherwise ends as the conversion of the loaded image
    ends. *)
Theorem horse_is_load_then_convert (w : World Backend) :
  never_errors (filters w) ->
  outcome (horse w) =
    match outcome (load "horse.png" true w) with
    | Raised e => Raised e
    | Returned img =>
        match snd (img_as_bool img) with
        | inl e => Raised e
        | inr bw => Returned bw
        end
    end.
Proof.
  intros Hfl. rewrite horse_eq, load_eq.
  destruct (use_plugin "pil" (plugin_store w)) as [e|b]; [reflexivity|].
  cbn zeta. unfold outcome, settle. cbn [snd].
  rewrite (never_errors_escalated _ _ Hfl).
  destruct (snd (imread b (fs w) (os_path_join data_dir "horse.png") true)); reflexivity.
Qed.

(** ** The backend *)

(** When "pil" cannot be selected, [load] and every accessor but [lena] fail
    with the exception of [use_plugin], without calling the decoder, and leave
    the world exactly as they found it. *)
Theorem backend_failure_changes_nothing (w : World Backend) (e : PyExc) :
  use_plugin "pil" (plugin_store w) = inl e ->
  (forall f g, load f g w = (w, Raised e))
  /\ (forall n, n <> Lena -> accessor n w = (w, Raised e)).
Proof.
  intros Hb.
  assert (Hload : forall f g, load f g w = (w, Raised e)).
  { intros f g. now rewrite load_eq, Hb. }
  split; [exact Hload|].
  intros n Hn. destruct n; try apply Hload; [congruence|].
  cbn [accessor]. now rewrite horse_eq, Hb.
Qed.

Lemma run_keeps_selected (Hdec : decorator_keeps_installation)
    (c : Call) (w : World Backend) :
  pil_selected (plugin_store w) ->
  plugin_store (world_after (run c w)) = plugin_store w.
Proof.
  unfold pil_selected. intros Hsel.
  destruct (run_frame Hdec c w) as (_ & [Hst|Hst] & _); [exact Hst|].
  rewrite Hsel in Hst. now injection Hst.
Qed.

Lemma run_calls_keep_selected (Hdec : decorator_keeps_installation)
    (cs : list Call) (w : World Backend) :
  pil_selected (plugin_store w) ->
  plugin_store (run_calls cs w) = plugin_store w.
Proof.
  revert w. induction cs as [|c cs IH]; intros w Hsel; [reflexivity|].
  cbn [run_calls].
  pose proof (run_keeps_selected Hdec c w Hsel) as Hc.
  rewrite IH; [exact Hc|]. unfold pil_selected. rewrite Hc. exact Hsel.
Qed.

(** When "pil" can be selected, a call of [load] or of an accessor other than
    [lena] leaves it selected whether the call returns or raises, and no run
    of further calls changes the registry again. *)
Theorem registry_settles_on_pil
    (Hidem : use_plugin_idempotent) (Hdec : decorator_keeps_installation)
    (c : Call) (w : World Backend) (b : Backend) :
  use_plugin "pil" (plugin_store w) = inr b ->
  c <> CallAccessor Lena ->
  plugin_store (world_after (run c w)) = b
  /\ (forall cs, plugin_store (run_calls cs (world_after (run c w))) = b).
Proof.
  intros Hb Hc.
  assert (Hfirst : plugin_store (world_after (run c w)) = b).
  { assert (Hload : forall f g, plugin_store (world_after (load f g w)) = b).
    { intros f g. now rewrite load_eq, Hb. }
    destruct c as [f g|n]; [apply Hload|].
    destruct n; try apply Hload; [congruence|].
    cbn [run accessor]. now rewrite horse_eq, Hb. }
  split; [exact Hfirst|].
  intros cs. rewrite run_calls_keep_selected; [exact Hfirst|exact Hdec|].
  unfold pil_selected. rewrite Hfirst. now apply (Hidem "pil" (plugin_store w)).
Qed.


(** ** Paths *)

(** Two filenames that do not start with the separator and differ resolve to
    different paths: [load] never reads one file for another. *)
Theorem relative_filenames_resolve_apart (f1 f2 : string) :
  startswith_sep f1 = false ->
  startswith_sep f2 = false ->
  os_path_join data_dir f1 = os_path_join data_dir f2 ->
  f1 = f2.
Proof. apply os_path_join_injective. Qed.


End Coverage.

(** Run against the reporting decoder, an accessor asks for the join of the
    data directory and its file; [lena] asks for nothing. *)
Lemma requested_path_eq (dir : string) (n : Name) :
  Probe.requested_path dir n = option_map (os_path_join dir) (catalog n).
Proof.
  assert (Hload : forall f g,
             outcome (@load (Probe.collaborators dir) f g Probe.blank)
             = Raised (mkExc Probe.Requested (os_path_join dir f))).
  { intros f g. rewrite load_eq. reflexivity. }
  unfold Probe.requested_path.
  destruct n; cbn [accessor catalog option_map];
    try (unfold camera, astronaut, text, checkerboard, coins, moon, page, clock,
           immunohistochemistry, chelsea, coffee, hubble_deep_field, rocket;
         rewrite Hload; reflexivity).
  - reflexivity.
  - rewrite horse_eq. reflexivity.
Qed.

(** No two accessors ask the decoder for the same path, whatever the data
    directory: two accessors that, run against the reporting decoder, ask for
    one path are one accessor. *)
Theorem accessors_request_distinct_paths (dir : string) (n1 n2 : Name) (p : string) :
  Probe.requested_path dir n1 = Some p ->
  Probe.requested_path dir n2 = Some p ->
  n1 = n2.
Proof.
  rewrite !requested_path_eq. intros H1 H2.
  assert (Hrel : forall n f, catalog n = Some f -> startswith_sep f = false).
  { intros n f. destruct n; cbn; intros [= <-]; reflexivity. }
  destruct (catalog n1) as [f1|] eqn:E1; [|discriminate].
  destruct (catalog n2) as [f2|] eqn:E2; [|discriminate].
  cbn [option_map] in H1, H2. injection H1 as H1. injection H2 as H2.
  assert (Heq : f1 = f2).
  { apply (os_path_join_injective dir); [now apply (Hrel n1)|now apply (Hrel n2)|].
    congruence. }
  subst f2. rewrite <- E2 in E1. clear - E1.
  destruct n1, n2; cbn in E1; solve [reflexivity | discriminate E1].
Qed.

Lemma accessors_request_distinct_paths_witness :
  Probe.requested_path "/pkg/skimage/data" Moon = Some "/pkg/skimage/data/moon.png"
  /\ Probe.requested_path "/pkg/skimage/data" Lena = None
  /\ Moon = Moon.
Proof.
  split; [reflexivity|]. split; [reflexivity|].
  apply (accessors_request_distinct_paths "/pkg/skimage/data" Moon Moon
           "/pkg/skimage/data/moon.png"); reflexivity.
Defined.

(** ** The further properties on the example installation *)

Lemma chatty_idempotent : @use_plugin_idempotent Sample.chatty_collaborators.
Proof.
  intros name b b'. cbn [use_plugin Sample.chatty_collaborators].
  unfold spec_use_plugin. destruct (Sample.only_pil name); congruence.
Qed.


(** The session of the example that has no filter at all. *)
Lemma horse_is_load_then_convert_witness :
  outcome (@load Sample.collaborators "horse.png" true Sample.fresh)
  = Returned (mkImage 1 2 None (DUInt 8) [0; 255]%Z)
  /\ outcome (@horse Sample.collaborators Sample.fresh)
     = Returned (mkImage 1 2 None DBool [0; 1]%Z).
Proof.
  split; [reflexivity|].
  rewrite (@horse_is_load_then_convert Sample.collaborators Sample.fresh);
    [reflexivity|].
  intros pw. cbn. discriminate.
Defined.

(** Without the backend [coins] and [horse] fail alike and change nothing. *)
Lemma backend_failure_changes_nothing_witness :
  @accessor Sample.bare_collaborators Coins Sample.strict
  = (Sample.strict, Raised (mkExc BackendUnavailable "pil"))
  /\ @accessor Sample.bare_collaborators Horse Sample.strict
     = (Sample.strict, Raised (mkExc BackendUnavailable "pil")).
Proof.
  destruct (@backend_failure_changes_nothing Sample.bare_collaborators Sample.strict
              (mkExc BackendUnavailable "pil") eq_refl) as (_ & Hacc).
  split; apply Hacc; discriminate.
Defined.

(** A load of a missing file selects "pil", and it stays selected through
    [lena], [horse] and a load of something that is not an image. *)
Lemma registry_settles_on_pil_witness :
  outcome (@load Sample.collaborators "nonexistent.png" false Sample.fresh)
  = Raised (mkExc FileNotFound "/pkg/skimage/data/nonexistent.png")
  /\ plugin_store
       (@run_calls Sample.collaborators
          [CallAccessor Lena; CallAccessor Horse; CallLoad "README.txt" true]
          (world_after (@load Sample.collaborators "nonexistent.png" false Sample.fresh)))
     = Some "pil".
Proof.
  split; [reflexivity|].
  destruct (@registry_settles_on_pil Sample.collaborators
              only_pil_idempotent plain_wrapper_keeps_installation
              (CallLoad "nonexistent.png" false) Sample.fresh (Some "pil")
              eq_refl ltac:(discriminate)) as (_ & Hlater).
  apply Hlater.
Defined.


Lemma relative_filenames_resolve_apart_witness :
  os_path_join (@data_dir Sample.collaborators) "moon.png" = "/pkg/skimage/data/moon.png"
  /\ "moon.png" = "moon.png".
Proof.
  split; [reflexivity|].
  apply (@relative_filenames_resolve_apart Sample.collaborators "moon.png" "moon.png");
    reflexivity.
Defined.

